(** * Verification of the command sanitizer and executor of ai_shell.py

    Python strings are modelled as [list ascii]: a character is a code point
    below 256 (Latin-1), which is enough for every literal of the program. *)

From Stdlib Require Import List Ascii String Bool Arith ZArith Lia.
Import ListNotations.
Open Scope list_scope.

Definition str := list ascii.

(** String literals of the source, written as Rocq strings. *)
Definition lit (s : string) : str := list_ascii_of_string s.

(** ** Python string primitives *)
Module Py.

(** [str.isspace] restricted to code points below 256. *)
Definition is_space (c : ascii) : bool :=
  match nat_of_ascii c with
  | 9 | 10 | 11 | 12 | 13 | 28 | 29 | 30 | 31 | 32 | 133 | 160 => true
  | _ => false
  end.

(** [s.lstrip()] *)
Fixpoint lstrip (s : str) : str :=
  match s with
  | [] => []
  | c :: s' => if is_space c then lstrip s' else s
  end.

(** [s.rstrip()] *)
Definition rstrip (s : str) : str := rev (lstrip (rev s)).

(** [s.strip()] *)
Definition strip (s : str) : str := rstrip (lstrip s).

(** [s.lstrip(ch)] for a one-character argument. *)
Fixpoint lstrip_char (ch : ascii) (s : str) : str :=
  match s with
  | [] => []
  | c :: s' => if Ascii.eqb c ch then lstrip_char ch s' else s
  end.

Fixpoint prefixb (p s : str) : bool :=
  match p, s with
  | [], _ => true
  | a :: p', b :: s' => Ascii.eqb a b && prefixb p' s'
  | _ :: _, [] => false
  end.

(** [s.startswith(p)] *)
Definition startswith (s p : str) : bool := prefixb p s.

(** [sub in s] *)
Fixpoint contains (sub s : str) : bool :=
  prefixb sub s ||
  match s with
  | [] => false
  | _ :: s' => contains sub s'
  end.

(** [s.replace(old, empty)] for a non-empty [old]: occurrences are removed
    left to right without overlap.  [k] counts the characters of the
    occurrence just found that are still to be skipped. *)
Fixpoint remove_go (old : str) (k : nat) (s : str) : str :=
  match s with
  | [] => []
  | c :: s' =>
      match k with
      | S k' => remove_go old k' s'
      | O => if prefixb old s then remove_go old (pred (List.length old)) s'
             else c :: remove_go old O s'
      end
  end.

Definition replace_empty (s old : str) : str := remove_go old O s.

Definition is_amp (c : ascii) : bool := Ascii.eqb c "&"%char.

(** [s.split("&&")]: [cur] holds the current piece, in order. *)
Fixpoint split_amp_go (cur : str) (s : str) : list str :=
  match s with
  | [] => [cur]
  | c :: s' =>
      match s' with
      | c2 :: s'' =>
          if is_amp c && is_amp c2 then cur :: split_amp_go [] s''
          else split_amp_go (cur ++ [c]) s'
      | [] => split_amp_go (cur ++ [c]) s'
      end
  end.

Definition split_ampamp (s : str) : list str := split_amp_go [] s.

(** [" && ".join(l)] *)
Fixpoint join (sep : str) (l : list str) : str :=
  match l with
  | [] => []
  | [x] => x
  | x :: l' => x ++ sep ++ join sep l'
  end.

End Py.

(** ** [shlex.split(s)] (POSIX mode, [whitespace_split], no comments)

    The lexer of Python's [shlex.read_token], run over the whole input.
    Word characters, punctuation and [whitespace_split] all send a plain
    character to the word state; [None] is the [ValueError] raised on a
    missing closing quotation or a trailing escape. *)
Module Shlex.

Inductive lexstate :=
  | Space                      (* state ' ' *)
  | Word                       (* state 'a' *)
  | Quote (q : ascii)          (* a quote state: double or single quote *)
  | Escape (back : lexstate).  (* the escape state, [escapedstate] = back *)

Definition is_ws (c : ascii) : bool :=
  match nat_of_ascii c with
  | 32 | 9 | 13 | 10 => true
  | _ => false
  end.

Definition dquote : ascii := "034"%char.
Definition backslash : ascii := "092"%char.

Definition is_quote (c : ascii) : bool :=
  Ascii.eqb c "'"%char || Ascii.eqb c dquote.

Definition is_escape (c : ascii) : bool := Ascii.eqb c backslash.

(** [st] the lexer state, [tok] the current token, [acc] the tokens
    already emitted (in order). *)
Fixpoint lex (st : lexstate) (tok : str) (acc : list str) (s : str)
  : option (list str) :=
  match s with
  | [] =>
      match st with
      | Space => Some acc
      | Word => Some (acc ++ [tok])
      | Quote _ => None                      (* No closing quotation *)
      | Escape _ => None                     (* No escaped character *)
      end
  | c :: s' =>
      match st with
      | Space =>
          if is_ws c then lex Space tok acc s'
          else if is_escape c then lex (Escape Word) tok acc s'
          else if is_quote c then lex (Quote c) tok acc s'
          else lex Word (tok ++ [c]) acc s'
      | Word =>
          if is_ws c then lex Space [] (acc ++ [tok]) s'
          else if is_quote c then lex (Quote c) tok acc s'
          else if is_escape c then lex (Escape Word) tok acc s'
          else lex Word (tok ++ [c]) acc s'
      | Quote q =>
          if Ascii.eqb c q then lex Word tok acc s'
          else if is_escape c && Ascii.eqb q dquote
          then lex (Escape (Quote q)) tok acc s'
          else lex (Quote q) (tok ++ [c]) acc s'
      | Escape back =>
          let tok' :=
            match back with
            | Quote q =>
                if negb (Ascii.eqb c backslash) && negb (Ascii.eqb c q)
                then tok ++ [backslash] else tok
            | _ => tok
            end in
          lex back (tok' ++ [c]) acc s'
      end
  end.

Definition split (s : str) : option (list str) := lex Space [] [] s.

End Shlex.

(** ** [clean_ai_response] *)

Definition allowed_commands : list str :=
  map lit ["ls"; "cd"; "pwd"; "mkdir"; "touch"; "rm"; "cp"; "mv";
           "cat"; "echo"; "git"; "npm"; "pip"]%string.

Definition tool_prefixes : list str :=
  map lit ["file_manager"; "web_search"; "system_control"]%string.

Definition bang : ascii := "!"%char.

Definition in_list (x : str) (l : list str) : bool :=
  existsb (fun y => if list_eq_dec ascii_dec x y then true else false) l.

(** Lines 26-31: the text before the split at ["&&"]. *)
Definition command_text (ai_response : str) : str :=
  fold_left
    (fun t prefix => Py.strip (Py.replace_empty t (bang :: prefix)))
    tool_prefixes
    (Py.strip (Py.lstrip_char bang ai_response)).

(** Lines 37-56: the body of the loop for one segment [cmd]; the
    commands it appends to [cleaned_commands]. *)
Definition clean_segment (seg : str) : list str :=
  let cmd := Py.strip seg in
  if Py.contains (lit "echo") cmd && Py.contains (lit ">") cmd then [cmd]
  else
    match Shlex.split cmd with
    | None => []
    | Some [] => []
    | Some (p :: _) => if in_list p allowed_commands then [cmd] else []
    end.

(** The test deciding whether a segment survives the loop body. *)
Definition segment_survives (seg : str) : bool :=
  let cmd := Py.strip seg in
  (Py.contains (lit "echo") cmd && Py.contains (lit ">") cmd) ||
  match Shlex.split cmd with
  | Some (p :: _) => in_list p allowed_commands
  | _ => false
  end.

Definition clean_ai_response (ai_response : str) : list str :=
  flat_map clean_segment (Py.split_ampamp (command_text ai_response)).

(** ** [execute_command] and the turn of [main] *)

(** What [subprocess.run(final_command, capture_output=True, text=True,
    shell=True)] gives back: a completed process, or an exception. *)
Inductive run_result :=
  | Completed (returncode : Z) (stdout stderr : str)
  | Raised (message : str).

Definition newline : ascii := "010"%char.

Section Executor.

(** The host shell, as seen from the program. *)
Variable subprocess_run : str -> run_result.

Definition execute_command (ai_response : str) : str :=
  match clean_ai_response ai_response with
  | [] => lit "No valid commands found."
  | commands =>
      let final_command := Py.join (lit " && ") commands in
      match subprocess_run final_command with
      | Completed returncode stdout stderr =>
          if Z.eqb returncode 0 then
            match Py.strip stdout with
            | [] => lit " ^z   ^o Command '" ++ final_command
                      ++ lit "' executed successfully."
            | out => out
            end
          else lit " ^z   ^o Error:" ++ [newline] ++ Py.strip stderr
      | Raised e => lit "Execution error: " ++ e
      end
  end.

(** [call_ollama] returns the joined streamed chunks, stripped. *)
Definition call_ollama_text (chunks : list str) : str :=
  Py.strip (List.concat chunks).

(** One iteration of the loop of [main] (lines 162-171): the printed
    output, or [None] when nothing is executed. *)
Definition main_turn (chunks : list str) : option str :=
  let ai_response := call_ollama_text chunks in
  if Py.startswith ai_response (lit "!")
  then Some (execute_command ai_response)
  else None.

End Executor.

(** ** The response handling of [call_ollama] (lines 127-150) *)

(** The uncaught exceptions the function can raise. *)
Inductive py_exc :=
  | AttributeError       (* [.get] on a value that is not a dict *)
  | TypeError            (* [str.join] over a value that is not a str *)
  | HTTPError            (* [response.raise_for_status()] *)
  | BodyDecodeError.     (* [response.json()] on a body that is not JSON *)

Inductive result (A : Type) :=
  | Ok (a : A)
  | Err (e : py_exc).
Arguments Ok {A} a.
Arguments Err {A} e.

Definition bind {A B} (m : result A) (k : A -> result B) : result B :=
  match m with Ok a => k a | Err e => Err e end.

Notation "x <- m ;; k" := (bind m (fun x => k))
  (at level 61, m at next level, right associativity).

Module Ollama.

(** Values produced by [json.loads]: integers stand for numbers (only
    their being zero matters to the code), objects keep their members in
    order. *)
Inductive json :=
  | JNull
  | JBool (b : bool)
  | JNum (n : Z)
  | JStr (s : str)
  | JArr (l : list json)
  | JObj (members : list (str * json)).

(** [d.get(key)] on the dict built by [json.loads]: the last duplicate
    key wins. *)
Definition obj_get (key : str) (members : list (str * json)) : option json :=
  fold_left
    (fun acc kv => if list_eq_dec ascii_dec (fst kv) key then Some (snd kv) else acc)
    members None.

(** Python truthiness ([if content:]). *)
Definition truthy (v : json) : bool :=
  match v with
  | JNull => false
  | JBool b => b
  | JNum n => negb (Z.eqb n 0)
  | JStr s => match s with [] => false | _ => true end
  | JArr l => match l with [] => false | _ => true end
  | JObj m => match m with [] => false | _ => true end
  end.

(** [data.get("message", {}).get("content", "")] *)
Definition get_content (data : json) : result json :=
  match data with
  | JObj members =>
      match match obj_get (lit "message") members with
            | Some m => m
            | None => JObj []
            end with
      | JObj inner =>
          Ok (match obj_get (lit "content") inner with
              | Some c => c
              | None => JStr []
              end)
      | _ => Err AttributeError
      end
  | _ => Err AttributeError
  end.

(** [("".join(full_text))] *)
Fixpoint join_strs (parts : list json) : result str :=
  match parts with
  | [] => Ok []
  | JStr s :: rest => r <- join_strs rest ;; Ok (s ++ r)
  | _ :: _ => Err TypeError
  end.

(** [requests]' [raise_for_status]: client and server error codes. *)
Definition status_error (status : Z) : bool :=
  (400 <=? status)%Z && (status <? 600)%Z.

Section Response.

(** [json.loads], [None] for a [JSONDecodeError]. *)
Variable json_loads : str -> option json.

(** The loop over [response.iter_lines()]: the chunks appended to
    [full_text], in order. *)
Fixpoint stream_contents (lines : list str) : result (list json) :=
  match lines with
  | [] => Ok []
  | line :: rest =>
      match Py.strip line with
      | [] => stream_contents rest
      | _ =>
          match json_loads line with
          | None => stream_contents rest          (* except JSONDecodeError: pass *)
          | Some data =>
              content <- get_content data ;;
              if truthy content
              then (tl <- stream_contents rest ;; Ok (content :: tl))
              else stream_contents rest
          end
      end
  end.

(** [call_ollama(..., stream_response=True)] after the request: the HTTP
    status and the lines of the body. *)
Definition call_ollama_stream (status : Z) (lines : list str) : result str :=
  if status_error status then Err HTTPError
  else
    contents <- stream_contents lines ;;
    text <- join_strs contents ;;
    Ok (Py.strip text).

(** [call_ollama(..., stream_response=False)] after the request. *)
Definition call_ollama_whole (status : Z) (body : str) : result str :=
  if status_error status then Err HTTPError
  else
    match json_loads body with
    | None => Err BodyDecodeError
    | Some data =>
        content <- get_content data ;;
        text <- join_strs [content] ;;
        Ok (Py.strip text)
    end.

End Response.

End Ollama.

(** ** The loop of [main] (lines 152-171) *)

(** [str.lower] on code points below 256. *)
Definition lower (c : ascii) : ascii :=
  let n := nat_of_ascii c in
  if (Nat.leb 65 n && Nat.leb n 90) || (Nat.leb 192 n && Nat.leb n 222 && negb (Nat.eqb n 215))
  then ascii_of_nat (n + 32) else c.

(** [user_input.lower() in ["exit", "quit"]] *)
Definition is_exit (user_input : str) : bool :=
  let l := map lower user_input in
  in_list l [lit "exit"; lit "quit"].

(** How the loop ends: on [exit]/[quit], on an exception of [call_ollama]
    (nothing catches it), or on [EOFError] when input runs out. *)
Inductive ending :=
  | Shutdown
  | Crashed (e : py_exc)
  | EndOfInput.

Section MainLoop.

Variable subprocess_run : str -> run_result.
(** [call_ollama(model_name="llama3.2", prompt, stream_response=True)] *)
Variable call_ollama : str -> result str.

(** The lines read by [input], the outputs printed by [print(output)],
    and how the loop ends. *)
Fixpoint main_loop (inputs : list str) : list str * ending :=
  match inputs with
  | [] => ([], EndOfInput)
  | line :: rest =>
      let user_input := Py.strip line in
      if is_exit user_input then ([], Shutdown)
      else
        match call_ollama user_input with
        | Err e => ([], Crashed e)
        | Ok ai_response =>
            let '(outs, fin) := main_loop rest in
            ((if Py.startswith ai_response (lit "!")
              then [execute_command subprocess_run ai_response] else []) ++ outs, fin)
        end
  end.

End MainLoop.

(** * Properties of the Python primitives *)

Module PyFacts.
Import Py.

Lemma lstrip_suffix : forall s, exists z, s = z ++ lstrip s.
Proof.
  induction s as [|c s IH]; simpl.
  - exists []; reflexivity.
  - destruct (is_space c).
    + destruct IH as [z Hz]. exists (c :: z). simpl. congruence.
    + exists []. reflexivity.
Qed.

Lemma rstrip_prefix : forall s, exists w, s = rstrip s ++ w.
Proof.
  intro s. destruct (lstrip_suffix (rev s)) as [z Hz].
  exists (rev z). unfold rstrip.
  rewrite <- rev_app_distr, <- Hz, rev_involutive. reflexivity.
Qed.

Lemma lstrip_head : forall s,
  lstrip s = [] \/ exists c t, lstrip s = c :: t /\ is_space c = false.
Proof.
  induction s as [|c s IH]; simpl; auto.
  destruct (is_space c) eqn:E; auto.
  right. exists c, s. auto.
Qed.

Lemma lstrip_fix : forall s, lstrip (lstrip s) = lstrip s.
Proof.
  intro s. destruct (lstrip_head s) as [H | (c & t & H & E)]; rewrite H.
  - reflexivity.
  - simpl. rewrite E. reflexivity.
Qed.

Lemma lstrip_snoc : forall l a, is_space a = false ->
  exists y, lstrip (l ++ [a]) = y ++ [a].
Proof.
  induction l as [|b l IH]; intros a Ha; simpl.
  - rewrite Ha. exists []. reflexivity.
  - destruct (is_space b).
    + apply IH, Ha.
    + exists (b :: l). reflexivity.
Qed.

Lemma lstrip_rstrip : forall x, lstrip x = x -> lstrip (rstrip x) = rstrip x.
Proof.
  intros [|a t] H; [reflexivity|].
  simpl in H. destruct (is_space a) eqn:E.
  - exfalso. destruct (lstrip_suffix t) as [z Hz].
    rewrite H in Hz. apply (f_equal (@List.length ascii)) in Hz.
    rewrite length_app in Hz. simpl in Hz. lia.
  - unfold rstrip. simpl rev.
    destruct (lstrip_snoc (rev t) a E) as [y Hy]. rewrite Hy.
    rewrite rev_app_distr. simpl. rewrite E. reflexivity.
Qed.

Lemma rstrip_fix : forall x, rstrip (rstrip x) = rstrip x.
Proof. intro x. unfold rstrip. rewrite rev_involutive, lstrip_fix. reflexivity. Qed.

(** [s.strip().strip() == s.strip()] *)
Lemma strip_idem : forall s, strip (strip s) = strip s.
Proof.
  intro s. unfold strip at 1 2.
  rewrite (lstrip_rstrip (lstrip s) (lstrip_fix s)). apply rstrip_fix.
Qed.

Lemma prefixb_app : forall p s y, prefixb p s = true -> prefixb p (s ++ y) = true.
Proof.
  induction p as [|a p IH]; intros [|b s] y H; simpl in *; auto; try discriminate.
  apply andb_true_iff in H as [H1 H2]. rewrite H1. simpl. auto.
Qed.

Lemma contains_app_r : forall sub x t, contains sub t = true -> contains sub (x ++ t) = true.
Proof.
  intros sub x t H. induction x as [|a x IH]; simpl; auto.
  rewrite IH. apply orb_true_r.
Qed.

Lemma contains_app_l : forall sub p y, contains sub p = true -> contains sub (p ++ y) = true.
Proof.
  intros sub p y. induction p as [|a p IH]; intro H.
  - simpl in H. rewrite orb_false_r in H.
    destruct sub; [|discriminate]. destruct y; reflexivity.
  - simpl in H |- *. apply orb_true_iff in H as [H | H].
    + apply (prefixb_app _ _ y) in H. simpl in H. rewrite H. reflexivity.
    + rewrite IH by exact H. apply orb_true_r.
Qed.

(** A substring of [strip s] is a substring of [s]. *)
Lemma contains_strip : forall sub s, contains sub s = false -> contains sub (strip s) = false.
Proof.
  intros sub s H. destruct (contains sub (strip s)) eqn:E; [|reflexivity].
  exfalso. unfold strip in E.
  destruct (rstrip_prefix (lstrip s)) as [w Hw].
  destruct (lstrip_suffix s) as [z Hz].
  apply (contains_app_l _ _ w) in E. rewrite <- Hw in E.
  apply (contains_app_r _ z) in E. rewrite <- Hz in E. congruence.
Qed.

Local Abbreviation aa := (contains (lit "&&")).

Lemma aa_cons2 : forall a b t, aa (a :: b :: t) = (is_amp a && is_amp b) || aa (b :: t).
Proof.
  intros a b t. unfold is_amp. cbn [contains lit list_ascii_of_string prefixb].
  rewrite andb_true_r, (Ascii.eqb_sym a), (Ascii.eqb_sym b). reflexivity.
Qed.

Lemma aa_single : forall a, aa [a] = false.
Proof. intro a. cbn. rewrite andb_false_r. reflexivity. Qed.

Lemma aa_snoc : forall l c,
  aa (l ++ [c]) = aa l || (is_amp (last l "a"%char) && is_amp c).
Proof.
  induction l as [|x l IH]; intro c.
  - rewrite app_nil_l, aa_single. reflexivity.
  - destruct l as [|y l].
    + simpl app. rewrite aa_cons2, aa_single, aa_single, orb_false_r. reflexivity.
    + change ((x :: y :: l) ++ [c]) with (x :: y :: (l ++ [c])).
      rewrite !aa_cons2. change (y :: l ++ [c]) with ((y :: l) ++ [c]).
      rewrite IH. rewrite orb_assoc. reflexivity.
Qed.

(** Every piece of [s.split("&&")] is free of ["&&"]. *)
Lemma split_amp_go_pieces : forall n s cur, List.length s <= n ->
  aa cur = false ->
  (is_amp (last cur "a"%char) = true ->
     match s with c :: _ => is_amp c = false | [] => True end) ->
  Forall (fun p => aa p = false) (split_amp_go cur s).
Proof.
  induction n as [|n IH]; intros s cur Hlen Hcur Hlast.
  - destruct s; [|simpl in Hlen; lia]. simpl. auto.
  - destruct s as [|c s']; simpl.
    + auto.
    + simpl in Hlen. destruct s' as [|c2 s''].
      * simpl. constructor; [|constructor].
        rewrite aa_snoc, Hcur. simpl.
        destruct (is_amp (last cur "a"%char)) eqn:E; [|reflexivity].
        rewrite (Hlast eq_refl). reflexivity.
      * destruct (is_amp c && is_amp c2) eqn:Ecc.
        -- constructor; [exact Hcur|].
           apply IH; [simpl in Hlen; lia | reflexivity | discriminate].
        -- apply IH; [lia | |].
           ++ rewrite aa_snoc, Hcur. simpl.
              destruct (is_amp (last cur "a"%char)) eqn:E; [|reflexivity].
              rewrite (Hlast eq_refl). reflexivity.
           ++ rewrite last_last. intro Hc. rewrite Hc in Ecc. exact Ecc.
Qed.

Lemma split_ampamp_pieces : forall s,
  Forall (fun p => aa p = false) (split_ampamp s).
Proof.
  intro s. apply (split_amp_go_pieces (List.length s)); auto. discriminate.
Qed.

Lemma split_amp_go_none : forall s cur, aa s = false -> split_amp_go cur s = [cur ++ s].
Proof.
  induction s as [|c s' IH]; intros cur H; simpl.
  - rewrite app_nil_r. reflexivity.
  - destruct s' as [|c2 s''].
    + reflexivity.
    + rewrite aa_cons2 in H. apply orb_false_iff in H as [H1 H2].
      rewrite H1, IH by exact H2. rewrite <- app_assoc. reflexivity.
Qed.

Lemma remove_go_absent : forall old s, contains old s = false -> remove_go old O s = s.
Proof.
  intro old. induction s as [|c s IH]; intro H; simpl in *; [reflexivity|].
  apply orb_false_iff in H as [H1 H2]. rewrite H1, IH by exact H2. reflexivity.
Qed.

End PyFacts.

(** * Properties of [clean_ai_response] *)

Module SanitizerFacts.

Lemma clean_segment_survives : forall seg,
  clean_segment seg = if segment_survives seg then [Py.strip seg] else [].
Proof.
  intro seg. unfold clean_segment, segment_survives.
  destruct (Py.contains (lit "echo") (Py.strip seg) && Py.contains (lit ">") (Py.strip seg));
    [reflexivity|].
  simpl. destruct (Shlex.split (Py.strip seg)) as [[|p ps]|]; reflexivity.
Qed.

Lemma segment_survives_strip : forall seg,
  segment_survives (Py.strip seg) = segment_survives seg.
Proof. intro seg. unfold segment_survives. rewrite PyFacts.strip_idem. reflexivity. Qed.

Lemma flat_map_filter : forall (f : str -> bool) (g : str -> str) l,
  flat_map (fun x => if f x then [g x] else []) l = map g (filter f l).
Proof.
  intros f g l. induction l as [|x l IH]; simpl; [reflexivity|].
  destruct (f x); simpl; rewrite IH; reflexivity.
Qed.

Lemma clean_as_filter : forall r,
  clean_ai_response r =
  map Py.strip (filter segment_survives (Py.split_ampamp (command_text r))).
Proof.
  intro r. unfold clean_ai_response. rewrite <- flat_map_filter.
  apply flat_map_ext. apply clean_segment_survives.
Qed.

Lemma in_clean : forall r s, In s (clean_ai_response r) ->
  exists seg, In seg (Py.split_ampamp (command_text r)) /\
              s = Py.strip seg /\ segment_survives seg = true.
Proof.
  intros r s H. rewrite clean_as_filter in H.
  apply in_map_iff in H as (seg & Hs & Hin).
  apply filter_In in Hin as [Hin Hsv]. exists seg. auto.
Qed.

Lemma clean_split_app : forall r pre seg post,
  Py.split_ampamp (command_text r) = pre ++ seg :: post ->
  clean_ai_response r =
  flat_map clean_segment pre ++ clean_segment seg ++ flat_map clean_segment post.
Proof.
  intros r pre seg post H. unfold clean_ai_response. rewrite H, flat_map_app.
  reflexivity.
Qed.

(** A surviving segment is accepted either through the redirection
    exception or through its first shell token. *)
Lemma survives_cases : forall seg, segment_survives seg = true ->
  (Py.contains (lit "echo") (Py.strip seg) && Py.contains (lit ">") (Py.strip seg)) = true \/
  exists p ps, Shlex.split (Py.strip seg) = Some (p :: ps) /\
               in_list p allowed_commands = true.
Proof.
  intros seg H. unfold segment_survives in H. apply orb_true_iff in H as [H | H].
  - left; exact H.
  - right. destruct (Shlex.split (Py.strip seg)) as [[|p ps]|]; try discriminate.
    exists p, ps. auto.
Qed.

Lemma command_text_plain : forall s,
  Py.startswith s (lit "!") = false ->
  Py.strip s = s ->
  Forall (fun p => Py.contains (bang :: p) s = false) tool_prefixes ->
  command_text s = s.
Proof.
  intros s Hbang Hstrip Hpre. unfold command_text.
  assert (Hl : Py.lstrip_char bang s = s).
  { destruct s as [|c t]; [reflexivity|]. cbn [Py.lstrip_char].
    unfold Py.startswith in Hbang.
    cbn [lit list_ascii_of_string Py.prefixb] in Hbang.
    rewrite andb_true_r in Hbang. unfold bang.
    rewrite Ascii.eqb_sym, Hbang. reflexivity. }
  rewrite Hl, Hstrip. unfold tool_prefixes in Hpre.
  inversion Hpre as [|? ? H1 Hpre1]; subst.
  inversion Hpre1 as [|? ? H2 Hpre2]; subst.
  inversion Hpre2 as [|? ? H3 _]; subst.
  simpl fold_left. unfold Py.replace_empty.
  rewrite (PyFacts.remove_go_absent _ _ H1), Hstrip.
  rewrite (PyFacts.remove_go_absent _ _ H2), Hstrip.
  rewrite (PyFacts.remove_go_absent _ _ H3), Hstrip.
  reflexivity.
Qed.

End SanitizerFacts.

(** * The claims *)

Import SanitizerFacts.

(** ** C1 *)

(** C1 (counterexample): [clean_ai_response] does not look for the
    sentinel: the plain reply [ls] gives back the command [ls]. *)
Lemma C1_sanitizer_ignores_sentinel :
  clean_ai_response (lit "ls") = [lit "ls"].
Proof. vm_compute. reflexivity. Qed.

(** C1 (amended): the sentinel is checked by [main]: when the trimmed
    reply of the model does not start with [!], the turn executes nothing. *)
Theorem C1_main_turn_without_sentinel : forall subprocess_run chunks,
  Py.startswith (call_ollama_text chunks) (lit "!") = false ->
  main_turn subprocess_run chunks = None.
Proof.
  intros subprocess_run chunks H. unfold main_turn. rewrite H. reflexivity.
Qed.

Lemma C1_main_turn_without_sentinel_witness :
  main_turn (fun _ => Raised []) [lit "  ls"; lit " -la  "] = None.
Proof.
  apply C1_main_turn_without_sentinel. vm_compute. reflexivity.
Defined.

(** ** C2 *)

(** C2 (counterexample): a segment led by [sudo] survives when it also
    contains [echo] and [>]. *)
Lemma C2_disallowed_head_through_echo :
  let s := lit "sudo rm -rf / ; echo hi > x" in
  clean_ai_response (bang :: s) = [s] /\
  Shlex.split s = Some (map lit ["sudo"; "rm"; "-rf"; "/"; ";"; "echo"; "hi"; ">"; "x"]%string) /\
  in_list (lit "sudo") allowed_commands = false.
Proof. vm_compute. repeat split. Qed.

(** C2 (amended): every output string either contains both [echo] and
    [>] or has a first shell token in the allow list; in particular
    [sudo rm -rf /] is never an output. *)
Theorem C2_output_allowed_or_echo_redirect : forall r,
  (forall s, In s (clean_ai_response r) ->
     (Py.contains (lit "echo") s && Py.contains (lit ">") s) = true \/
     exists p ps, Shlex.split s = Some (p :: ps) /\ in_list p allowed_commands = true) /\
  ~ In (lit "sudo rm -rf /") (clean_ai_response r).
Proof.
  intro r.
  assert (Hall : forall s, In s (clean_ai_response r) ->
     (Py.contains (lit "echo") s && Py.contains (lit ">") s) = true \/
     exists p ps, Shlex.split s = Some (p :: ps) /\ in_list p allowed_commands = true).
  { intros s Hs. apply in_clean in Hs as (seg & _ & -> & Hsv).
    apply survives_cases, Hsv. }
  split; [exact Hall|].
  intro Hin. apply Hall in Hin as [H | (p & ps & Hsplit & Hp)].
  - vm_compute in H. discriminate.
  - vm_compute in Hsplit. injection Hsplit as <- _. vm_compute in Hp. discriminate.
Qed.

Lemma C2_output_allowed_or_echo_redirect_witness :
  ~ In (lit "sudo rm -rf /") (clean_ai_response (lit "!ls && sudo rm -rf / && pwd")).
Proof. apply (C2_output_allowed_or_echo_redirect (lit "!ls && sudo rm -rf / && pwd")). Defined.

(** ** C3 *)

(** C3: a segment whose trimmed text contains [echo] and [>] is appended
    as it is, whatever its first word, between the outputs of the
    segments around it. *)
Theorem C3_echo_redirect_verbatim : forall r pre seg post,
  Py.split_ampamp (command_text r) = pre ++ seg :: post ->
  (Py.contains (lit "echo") (Py.strip seg) && Py.contains (lit ">") (Py.strip seg)) = true ->
  clean_ai_response r =
  flat_map clean_segment pre ++ Py.strip seg :: flat_map clean_segment post.
Proof.
  intros r pre seg post Hsplit Hecho.
  rewrite (clean_split_app _ _ _ _ Hsplit). unfold clean_segment at 2.
  rewrite Hecho. reflexivity.
Qed.

Lemma C3_echo_redirect_verbatim_witness :
  clean_ai_response (lit "!ls && sudo reboot; echo done > log") =
  [lit "ls"; lit "sudo reboot; echo done > log"].
Proof.
  apply (C3_echo_redirect_verbatim _ [lit "ls "] (lit " sudo reboot; echo done > log") []);
    vm_compute; reflexivity.
Defined.

(** ** C4 *)

(** C4 (counterexample): the reply [!ls &!file_manager& pwd] is a single
    segment, led by [ls] and tokenizable, yet it gives two commands:
    removing [!file_manager] happens before the split and creates an
    [&&]. *)
Lemma C4_prefix_removal_creates_segment :
  let seg := lit "ls &!file_manager& pwd" in
  Py.split_ampamp seg = [seg] /\
  Shlex.split seg = Some [lit "ls"; lit "&!file_manager&"; lit "pwd"] /\
  clean_ai_response (bang :: seg) = [lit "ls"; lit "pwd"].
Proof. vm_compute. repeat split. Qed.

(** C4 (amended): when every [&&]-segment of the cleaned text (after the
    sentinel and the tool prefixes are removed) survives, the output is
    exactly these segments, trimmed, in order. *)
Theorem C4_all_segments_returned : forall r,
  Forall (fun seg => segment_survives seg = true) (Py.split_ampamp (command_text r)) ->
  clean_ai_response r = map Py.strip (Py.split_ampamp (command_text r)).
Proof.
  intros r Hall. rewrite clean_as_filter. f_equal.
  induction Hall as [|seg segs Hseg _ IH]; [reflexivity|].
  simpl. rewrite Hseg, IH. reflexivity.
Qed.

Lemma C4_all_segments_returned_witness :
  clean_ai_response (lit "!mkdir demo && touch demo/a.txt") =
  [lit "mkdir demo"; lit "touch demo/a.txt"].
Proof.
  rewrite C4_all_segments_returned; [vm_compute; reflexivity|].
  vm_compute. repeat constructor.
Defined.

(** ** C5 *)

(** C5 (counterexample): a successful run with standard error reports
    only the standard output. *)
Lemma C5_stderr_dropped_on_success :
  let report := execute_command (fun _ => Completed 0 (lit "out") (lit "warn")) (lit "!ls") in
  report = lit "out" /\ Py.contains (lit "warn") report = false.
Proof. vm_compute. split; reflexivity. Qed.

(** C5 (amended): with [final_command] the [ && ]-join of the commands,
    a nonzero status gives the error tag followed by the stripped standard
    error; status zero gives the stripped standard output, or, when that
    is empty, the success message naming [final_command]; standard error
    is not used on success. *)
Theorem C5_report_of_completed_run : forall subprocess_run r rc out err,
  clean_ai_response r <> [] ->
  subprocess_run (Py.join (lit " && ") (clean_ai_response r)) = Completed rc out err ->
  (rc <> 0%Z ->
     execute_command subprocess_run r = lit " ^z   ^o Error:" ++ [newline] ++ Py.strip err) /\
  (rc = 0%Z -> Py.strip out <> [] ->
     execute_command subprocess_run r = Py.strip out) /\
  (rc = 0%Z -> Py.strip out = [] ->
     execute_command subprocess_run r =
     lit " ^z   ^o Command '" ++ Py.join (lit " && ") (clean_ai_response r)
       ++ lit "' executed successfully.").
Proof.
  intros subprocess_run r rc out err Hne Hrun. unfold execute_command.
  destruct (clean_ai_response r) as [|c cs] eqn:Hc; [congruence|].
  rewrite Hrun. repeat split.
  - intro Hrc. apply Z.eqb_neq in Hrc. rewrite Hrc. reflexivity.
  - intros -> Hout. simpl. destruct (Py.strip out); [congruence|reflexivity].
  - intros -> Hout. simpl. rewrite Hout. reflexivity.
Qed.

Lemma C5_report_of_completed_run_witness :
  execute_command (fun _ => Completed 1 [] (lit "  mkdir: File exists ")) (lit "!mkdir demo")
  = lit " ^z   ^o Error:" ++ [newline] ++ lit "mkdir: File exists".
Proof.
  apply (C5_report_of_completed_run (fun _ => Completed 1 [] (lit "  mkdir: File exists "))
           (lit "!mkdir demo") 1 [] (lit "  mkdir: File exists "));
    [vm_compute; discriminate | reflexivity | discriminate].
Defined.

(** ** C6 *)

(** C6 (counterexample): [!echo >x] is an output of [!ls && !echo >x],
    but re-sanitizing [!!echo >x] strips both marks and gives [echo >x]. *)
Lemma C6_resanitize_strips_bang :
  let s := lit "!echo >x" in
  In s (clean_ai_response (lit "!ls && !echo >x")) /\
  clean_ai_response (bang :: s) = [lit "echo >x"] /\
  clean_ai_response (bang :: s) <> [s].
Proof. vm_compute. split; [auto | split; [reflexivity | discriminate]]. Qed.

(** C6 (amended): re-sanitizing an output [s] wrapped in the sentinel
    gives [[s]] back when [s] does not itself start with [!] and holds
    none of [!file_manager], [!web_search], [!system_control]. *)
Theorem C6_resanitize_identity : forall r s,
  In s (clean_ai_response r) ->
  Py.startswith s (lit "!") = false ->
  Forall (fun p => Py.contains (bang :: p) s = false) tool_prefixes ->
  clean_ai_response (bang :: s) = [s].
Proof.
  intros r s Hin Hbang Hpre.
  apply in_clean in Hin as (seg & Hseg & Hs & Hsv).
  assert (Hstrip : Py.strip s = s) by (subst; apply PyFacts.strip_idem).
  assert (Haa : Py.contains (lit "&&") s = false).
  { subst. apply PyFacts.contains_strip.
    pose proof (PyFacts.split_ampamp_pieces (command_text r)) as Hp.
    rewrite Forall_forall in Hp. exact (Hp seg Hseg). }
  change (clean_ai_response (bang :: s)) with (clean_ai_response s).
  unfold clean_ai_response. rewrite (command_text_plain s Hbang Hstrip Hpre).
  unfold Py.split_ampamp. rewrite PyFacts.split_amp_go_none by exact Haa.
  simpl. rewrite clean_segment_survives, Hstrip.
  subst s. rewrite segment_survives_strip, Hsv. reflexivity.
Qed.

Lemma C6_resanitize_identity_witness :
  clean_ai_response (bang :: lit "touch demo/a.txt") = [lit "touch demo/a.txt"].
Proof.
  apply (C6_resanitize_identity (lit "!mkdir demo && touch demo/a.txt"));
    vm_compute; [right; left; reflexivity | reflexivity | repeat constructor].
Defined.

(** ** C7 *)

(** C7: the outputs are the surviving [&&]-segments of the cleaned text,
    trimmed, in their left-to-right order and with repetitions kept. *)
Theorem C7_output_in_segment_order : forall r,
  clean_ai_response r =
  map Py.strip (filter segment_survives (Py.split_ampamp (command_text r))).
Proof. exact clean_as_filter. Qed.

Lemma C7_duplicates_kept : clean_ai_response (lit "!ls && ls && cd x && ls") =
  [lit "ls"; lit "ls"; lit "cd x"; lit "ls"].
Proof. vm_compute. reflexivity. Qed.

(** ** C8 *)

(** C8 (counterexample): a segment whose tokenization fails is kept when
    it contains [echo] and [>], since it is never tokenized. *)
Lemma C8_untokenizable_echo_kept :
  let s := lit "echo 'hi > x" in
  Shlex.split s = None /\ clean_ai_response (bang :: s) = [s].
Proof. vm_compute. split; reflexivity. Qed.

(** C8 (amended): a segment without both [echo] and [>] whose
    tokenization fails contributes nothing, and the other segments give
    what they give on their own. *)
Theorem C8_untokenizable_dropped : forall r pre seg post,
  Py.split_ampamp (command_text r) = pre ++ seg :: post ->
  (Py.contains (lit "echo") (Py.strip seg) && Py.contains (lit ">") (Py.strip seg)) = false ->
  Shlex.split (Py.strip seg) = None ->
  clean_ai_response r = flat_map clean_segment pre ++ flat_map clean_segment post.
Proof.
  intros r pre seg post Hsplit Hecho Hlex.
  rewrite (clean_split_app _ _ _ _ Hsplit). unfold clean_segment at 2.
  rewrite Hecho, Hlex. reflexivity.
Qed.

Lemma C8_untokenizable_dropped_witness :
  clean_ai_response (lit "!ls && cat 'notes && pwd") = [lit "ls"; lit "pwd"].
Proof.
  apply (C8_untokenizable_dropped _ [lit "ls "] (lit " cat 'notes ") [lit " pwd"]);
    vm_compute; reflexivity.
Defined.

(** ** C9 *)

(** C9: every output is non-empty, equal to its own strip and free of
    [&&]. *)
Theorem C9_output_wellformed : forall r s,
  In s (clean_ai_response r) ->
  s <> [] /\ Py.strip s = s /\ Py.contains (lit "&&") s = false.
Proof.
  intros r s Hin.
  apply in_clean in Hin as (seg & Hseg & -> & Hsv).
  split; [|split].
  - apply survives_cases in Hsv as [H | (p & ps & H & _)]; intro E; rewrite E in H.
    + discriminate.
    + discriminate.
  - apply PyFacts.strip_idem.
  - apply PyFacts.contains_strip.
    pose proof (PyFacts.split_ampamp_pieces (command_text r)) as Hp.
    rewrite Forall_forall in Hp. exact (Hp seg Hseg).
Qed.

Lemma C9_output_wellformed_witness :
  lit "pwd" <> [] /\ Py.strip (lit "pwd") = lit "pwd" /\
  Py.contains (lit "&&") (lit "pwd") = false.
Proof.
  apply (C9_output_wellformed (lit "!ls && pwd")). vm_compute. right; left; reflexivity.
Defined.

(** ** C10 *)

(** C10: one more leading [!] does not change the result. *)
Theorem C10_extra_sentinel_ignored : forall r,
  clean_ai_response (bang :: r) = clean_ai_response r.
Proof. intro r. reflexivity. Qed.

(** * Further properties of the code *)

Module JoinFacts.
Import Py.

Definition all_space (w : str) : bool := forallb is_space w.

Lemma lstrip_spaces : forall w z, all_space w = true -> lstrip (w ++ z) = lstrip z.
Proof.
  induction w as [|c w IH]; intros z H; simpl in *; [reflexivity|].
  apply andb_true_iff in H as [H1 H2]. rewrite H1. auto.
Qed.

Lemma stripped_lstrip : forall x, strip x = x -> lstrip x = x.
Proof.
  intros x H. rewrite <- H. unfold strip at 2.
  apply PyFacts.lstrip_rstrip, PyFacts.lstrip_fix.
Qed.

Lemma stripped_rstrip : forall x, strip x = x -> rstrip x = x.
Proof. intros x H. rewrite <- H. unfold strip. apply PyFacts.rstrip_fix. Qed.

(** A stripped, non-empty string padded with blanks strips back to
    itself. *)
Lemma strip_padded : forall w x w', all_space w = true -> all_space w' = true ->
  x <> [] -> strip x = x -> strip (w ++ x ++ w') = x.
Proof.
  intros w x w' Hw Hw' Hne Hx. unfold strip.
  rewrite lstrip_spaces by exact Hw.
  pose proof (stripped_lstrip x Hx) as Hl.
  destruct x as [|a t]; [congruence|].
  assert (Ha : is_space a = false).
  { simpl in Hl. destruct (is_space a) eqn:E; [|reflexivity].
    exfalso. destruct (PyFacts.lstrip_suffix t) as [z Hz]. rewrite Hl in Hz.
    apply (f_equal (@List.length ascii)) in Hz. rewrite length_app in Hz.
    simpl in Hz. lia. }
  simpl app. simpl lstrip. rewrite Ha.
  change (a :: t ++ w') with ((a :: t) ++ w').
  unfold rstrip. rewrite rev_app_distr.
  rewrite lstrip_spaces by (unfold all_space in *; rewrite forallb_forall in *;
                            intros c Hc; apply Hw'; apply in_rev; exact Hc).
  apply stripped_rstrip in Hx. exact Hx.
Qed.

Local Abbreviation aa := (contains (lit "&&")).

(** Walking over a piece without [&&] that is followed by a non-[&]
    character does not split. *)
Lemma split_over : forall x cur t, aa x = false ->
  match t with c :: _ => is_amp c = false | [] => True end ->
  split_amp_go cur (x ++ t) = split_amp_go (cur ++ x) t.
Proof.
  induction x as [|c x IH]; intros cur t Hx Ht.
  - rewrite app_nil_r. reflexivity.
  - simpl app. simpl split_amp_go.
    destruct x as [|c2 x'].
    + simpl app. destruct t as [|d t'].
      * reflexivity.
      * rewrite Ht, andb_false_r. reflexivity.
    + rewrite PyFacts.aa_cons2 in Hx. apply orb_false_iff in Hx as [H1 H2].
      rewrite <- !app_comm_cons. cbv beta iota. rewrite H1.
      rewrite app_comm_cons, IH by assumption.
      rewrite <- app_assoc. reflexivity.
Qed.

Definition sep : str := lit " && ".

Lemma split_sep : forall cur t,
  split_amp_go cur (sep ++ t) = (cur ++ [" "%char]) :: split_amp_go [] (" "%char :: t).
Proof. intros cur t. reflexivity. Qed.

Lemma join_split_go : forall l w,
  Forall (fun x => x <> [] /\ strip x = x /\ aa x = false) l -> l <> [] ->
  all_space w = true ->
  map strip (split_amp_go w (join sep l)) = l.
Proof.
  induction l as [|x l IH]; intros w Hall Hne Hw; [congruence|].
  inversion Hall as [|? ? (Hx1 & Hx2 & Hx3) Hrest]; subst.
  destruct l as [|y l].
  - replace (join sep [x]) with (x ++ []) by (simpl; apply app_nil_r).
    rewrite split_over by (simpl; auto). simpl split_amp_go. simpl map. f_equal.
    pose proof (strip_padded w x [] Hw eq_refl Hx1 Hx2) as E.
    rewrite app_nil_r in E. exact E.
  - change (join sep (x :: y :: l)) with (x ++ sep ++ join sep (y :: l)).
    rewrite split_over by (auto; reflexivity).
    rewrite split_sep. cbn [map]. rewrite <- app_assoc.
    rewrite (strip_padded w x [" "%char]) by (auto; reflexivity).
    f_equal.
    assert (Hs : forall t, split_amp_go [] (" "%char :: t) = split_amp_go [" "%char] t)
      by (intros [|d t]; reflexivity).
    rewrite Hs. apply IH; [exact Hrest | discriminate | reflexivity].
Qed.

End JoinFacts.

Module ExecutorExtras.

Lemma clean_output_facts : forall r,
  Forall (fun x => x <> [] /\ Py.strip x = x /\ Py.contains (lit "&&") x = false)
         (clean_ai_response r).
Proof.
  intro r. apply Forall_forall. intros s Hin.
  apply in_clean in Hin as (seg & Hseg & -> & Hsv).
  split; [|split].
  - apply survives_cases in Hsv as [H | (p & ps & H & _)]; intro E; rewrite E in H;
      discriminate.
  - apply PyFacts.strip_idem.
  - apply PyFacts.contains_strip.
    pose proof (PyFacts.split_ampamp_pieces (command_text r)) as Hp.
    rewrite Forall_forall in Hp. exact (Hp seg Hseg).
Qed.



(** The shell is run on one command line only: the commands joined with
    [ && ]; two shells that agree on it give the same report. *)
Theorem execute_single_invocation : forall run1 run2 r,
  run1 (Py.join (lit " && ") (clean_ai_response r)) =
  run2 (Py.join (lit " && ") (clean_ai_response r)) ->
  execute_command run1 r = execute_command run2 r.
Proof.
  intros run1 run2 r H. unfold execute_command.
  destruct (clean_ai_response r) as [|c cs]; [reflexivity|].
  rewrite H. reflexivity.
Qed.

Lemma execute_single_invocation_witness :
  execute_command (fun c => if list_eq_dec ascii_dec c (lit "ls && pwd")
                            then Completed 0 (lit "a") [] else Raised [])
                  (lit "!ls && pwd") =
  execute_command (fun _ => Completed 0 (lit "a") []) (lit "!ls && pwd").
Proof. apply execute_single_invocation. vm_compute. reflexivity. Defined.



(** The [ && ]-joined command line splits back, at [&&] and after
    stripping, into exactly the sanitized commands. *)
Theorem join_split_roundtrip : forall r,
  clean_ai_response r <> [] ->
  map Py.strip (Py.split_ampamp (Py.join (lit " && ") (clean_ai_response r))) =
  clean_ai_response r.
Proof.
  intros r Hne. apply JoinFacts.join_split_go; [apply clean_output_facts | exact Hne | reflexivity].
Qed.

Lemma join_split_roundtrip_witness :
  map Py.strip (Py.split_ampamp (Py.join (lit " && ")
    (clean_ai_response (lit "!mkdir a&b &&&echo x > f && cd a&b")))) =
  clean_ai_response (lit "!mkdir a&b &&&echo x > f && cd a&b").
Proof. apply join_split_roundtrip. vm_compute. discriminate. Defined.

End ExecutorExtras.

Module OllamaExtras.
Import Ollama.

Section WithLoads.
Variable json_loads : str -> option json.

Lemma stream_cons_congr : forall x a b,
  stream_contents json_loads a = stream_contents json_loads b ->
  stream_contents json_loads (x :: a) = stream_contents json_loads (x :: b).
Proof. intros x a b H. simpl. rewrite H. reflexivity. Qed.

Lemma stream_app_congr : forall pre a b,
  stream_contents json_loads a = stream_contents json_loads b ->
  stream_contents json_loads (pre ++ a) = stream_contents json_loads (pre ++ b).
Proof.
  induction pre as [|x pre IH]; intros a b H; [exact H|].
  apply stream_cons_congr, IH, H.
Qed.

(** A streamed line that is blank, is not JSON, or whose content is
    falsy (missing, empty string, null, zero, false, empty list or
    object) is skipped: it changes nothing in the result. *)
Theorem stream_line_skipped : forall status pre line post,
  (Py.strip line = [] \/ json_loads line = None \/
   exists data content, json_loads line = Some data /\
     get_content data = Ok content /\ truthy content = false) ->
  call_ollama_stream json_loads status (pre ++ line :: post) =
  call_ollama_stream json_loads status (pre ++ post).
Proof.
  intros status pre line post H. unfold call_ollama_stream.
  rewrite (stream_app_congr pre (line :: post) post); [reflexivity|].
  simpl. destruct (Py.strip line) as [|c t] eqn:Hs; [reflexivity|].
  destruct H as [H | [H | (data & content & Hd & Hc & Ht)]]; [discriminate | |].
  - rewrite H. reflexivity.
  - rewrite Hd, Hc. simpl. rewrite Ht. reflexivity.
Qed.

End WithLoads.

Lemma stream_line_skipped_witness :
  call_ollama_stream
    (fun l => if list_eq_dec ascii_dec l (lit "{}") then Some (JObj []) else None)
    200 [lit "garbage"; lit "{}"; lit "   "] =
  call_ollama_stream
    (fun l => if list_eq_dec ascii_dec l (lit "{}") then Some (JObj []) else None)
    200 [lit "garbage"; lit "   "].
Proof.
  apply (stream_line_skipped _ 200 [lit "garbage"] (lit "{}") [lit "   "]).
  right; right. exists (JObj []), (JStr []). vm_compute. auto.
Defined.

(** A well-formed JSON line that is not an object (a number, a string,
    a list, ...) makes [call_ollama] raise [AttributeError]: only
    [JSONDecodeError] is caught. *)
Theorem stream_non_object_raises : forall json_loads status pre line post cs data,
  status_error status = false ->
  stream_contents json_loads pre = Ok cs ->
  Py.strip line <> [] ->
  json_loads line = Some data ->
  (forall members, data <> JObj members) ->
  call_ollama_stream json_loads status (pre ++ line :: post) = Err AttributeError.
Proof.
  intros json_loads status pre line post cs data Hst Hpre Hline Hd Hobj.
  unfold call_ollama_stream. rewrite Hst.
  assert (Hl : stream_contents json_loads (line :: post) = Err AttributeError).
  { simpl. destruct (Py.strip line) as [|c t]; [congruence|]. rewrite Hd.
    destruct data; try reflexivity. exfalso. eapply Hobj. reflexivity. }
  assert (Happ : forall pre cs, stream_contents json_loads pre = Ok cs ->
            stream_contents json_loads (pre ++ line :: post) = Err AttributeError).
  { induction pre0 as [|x pre0 IH]; intros cs0 H; [exact Hl|].
    simpl in H |- *. destruct (Py.strip x); [apply (IH _ H)|].
    destruct (json_loads x) as [d|]; [|apply (IH _ H)].
    destruct (get_content d) as [c|e]; simpl in H |- *; [|discriminate].
    destruct (truthy c).
    - destruct (stream_contents json_loads pre0) as [tl|e] eqn:E; [|discriminate].
      rewrite (IH tl eq_refl). reflexivity.
    - apply (IH _ H). }
  rewrite (Happ pre cs Hpre). reflexivity.
Qed.

Lemma stream_non_object_raises_witness :
  call_ollama_stream
    (fun l => if list_eq_dec ascii_dec l (lit "42") then Some (JNum 42) else None)
    200 [lit "oops"; lit "42"; lit "more"] = Err AttributeError.
Proof.
  apply (stream_non_object_raises _ _ [lit "oops"] (lit "42") [lit "more"] [] (JNum 42));
    try reflexivity; try discriminate.
Defined.

Lemma stream_contents_truthy : forall json_loads lines cs,
  stream_contents json_loads lines = Ok cs -> Forall (fun c => truthy c = true) cs.
Proof.
  intros json_loads. induction lines as [|x lines IH]; intros cs H; simpl in H.
  - injection H as <-. constructor.
  - destruct (Py.strip x); [eauto|].
    destruct (json_loads x) as [d|]; [|eauto].
    destruct (get_content d) as [c|e]; simpl in H; [|discriminate].
    destruct (truthy c) eqn:Ec; [|eauto].
    destruct (stream_contents json_loads lines) as [tl|e] eqn:E; simpl in H; [|discriminate].
    injection H as <-. constructor; eauto.
Qed.

Lemma join_strs_ok : forall cs t, join_strs cs = Ok t ->
  exists chunks, cs = map JStr chunks /\ t = List.concat chunks.
Proof.
  induction cs as [|c cs IH]; intros t H; simpl in H.
  - injection H as <-. exists []. auto.
  - destruct c; try discriminate.
    destruct (join_strs cs) as [r|e] eqn:E; simpl in H; [|discriminate].
    injection H as <-. destruct (IH r eq_refl) as (chunks & -> & ->).
    exists (s :: chunks). auto.
Qed.

(** A successful streamed call returns the stripped concatenation of the
    non-empty string chunks the stream carried, in order: the text that
    the turn of [main] then inspects. *)
Theorem stream_result_chunks : forall json_loads status lines text,
  call_ollama_stream json_loads status lines = Ok text ->
  exists chunks, stream_contents json_loads lines = Ok (map JStr chunks) /\
    Forall (fun c => c <> []) chunks /\ text = call_ollama_text chunks.
Proof.
  intros json_loads status lines text H. unfold call_ollama_stream in H.
  destruct (status_error status); [discriminate|].
  destruct (stream_contents json_loads lines) as [cs|e] eqn:Ecs; simpl in H; [|discriminate].
  destruct (join_strs cs) as [t|e] eqn:Ej; simpl in H; [|discriminate].
  injection H as <-. destruct (join_strs_ok cs t Ej) as (chunks & -> & ->).
  exists chunks. split; [reflexivity|]. split; [|reflexivity].
  apply stream_contents_truthy in Ecs. rewrite Forall_map in Ecs.
  eapply Forall_impl; [|exact Ecs]. intros [|a s] Ht; [discriminate | congruence].
Qed.

Lemma stream_result_chunks_witness :
  exists chunks,
    stream_contents (fun l => Some (JObj [(lit "message", JObj [(lit "content", JStr l)])]))
      [lit " !ls"; lit " -la "] = Ok (map JStr chunks) /\
    Forall (fun c => c <> []) chunks /\ lit "!ls -la" = call_ollama_text chunks.
Proof.
  apply (stream_result_chunks _ 200). vm_compute. reflexivity.
Defined.

(** With a string content, the non-streaming call and a stream of that
    single body line return the same text. *)
Theorem whole_agrees_with_stream : forall json_loads status body data s,
  Py.strip body <> [] ->
  json_loads body = Some data ->
  get_content data = Ok (JStr s) ->
  call_ollama_whole json_loads status body = call_ollama_stream json_loads status [body].
Proof.
  intros json_loads status body data s Hb Hd Hc.
  unfold call_ollama_whole, call_ollama_stream.
  destruct (status_error status); [reflexivity|].
  rewrite Hd, Hc. simpl. destruct (Py.strip body) as [|x t]; [congruence|].
  rewrite Hd, Hc. simpl. destruct s as [|a s]; reflexivity.
Qed.

Lemma whole_agrees_with_stream_witness :
  call_ollama_whole (fun l => Some (JObj [(lit "message", JObj [(lit "content", JStr l)])]))
    200 (lit "!pwd") =
  call_ollama_stream (fun l => Some (JObj [(lit "message", JObj [(lit "content", JStr l)])]))
    200 [lit "!pwd"].
Proof.
  apply (whole_agrees_with_stream _ _ _
           (JObj [(lit "message", JObj [(lit "content", JStr (lit "!pwd"))])]) (lit "!pwd"));
    [discriminate | reflexivity | reflexivity].
Defined.

(** A null content ends the non-streaming call in [TypeError] (it is
    appended without the truthiness test and [str.join] refuses it),
    while the streaming call skips it. *)
Theorem null_content_modes_differ : forall json_loads status body data,
  status_error status = false ->
  Py.strip body <> [] ->
  json_loads body = Some data ->
  get_content data = Ok JNull ->
  call_ollama_whole json_loads status body = Err TypeError /\
  call_ollama_stream json_loads status [body] = Ok [].
Proof.
  intros json_loads status body data Hst Hb Hd Hc.
  unfold call_ollama_whole, call_ollama_stream. rewrite Hst, Hd, Hc.
  split; [reflexivity|]. simpl.
  destruct (Py.strip body) as [|x t]; [congruence|]. rewrite Hd, Hc. reflexivity.
Qed.

Lemma null_content_modes_differ_witness :
  call_ollama_whole (fun _ => Some (JObj [(lit "message", JObj [(lit "content", JNull)])]))
    200 (lit "{...}") = Err TypeError /\
  call_ollama_stream (fun _ => Some (JObj [(lit "message", JObj [(lit "content", JNull)])]))
    200 [lit "{...}"] = Ok [].
Proof.
  apply (null_content_modes_differ _ _ _
           (JObj [(lit "message", JObj [(lit "content", JNull)])]));
    [reflexivity | discriminate | reflexivity | reflexivity].
Defined.

End OllamaExtras.

Module MainExtras.

Section Loop.
Variable subprocess_run : str -> run_result.
Variable call_ollama : str -> result str.

Lemma main_loop_cons : forall line rest,
  is_exit (Py.strip line) = false ->
  forall ai, call_ollama (Py.strip line) = Ok ai ->
  main_loop subprocess_run call_ollama (line :: rest) =
  ((if Py.startswith ai (lit "!") then [execute_command subprocess_run ai] else [])
     ++ fst (main_loop subprocess_run call_ollama rest),
   snd (main_loop subprocess_run call_ollama rest)).
Proof.
  intros line rest Hx ai Hai. simpl. rewrite Hx, Hai.
  destruct (main_loop subprocess_run call_ollama rest). reflexivity.
Qed.

(** After a line that quits the loop ([exit]/[quit], or a failing call
    to the model), no further input is read: what follows it changes
    nothing. *)
Theorem main_stops_reading : forall pre line post,
  (is_exit (Py.strip line) = true \/ exists e, call_ollama (Py.strip line) = Err e) ->
  main_loop subprocess_run call_ollama (pre ++ line :: post) =
  main_loop subprocess_run call_ollama (pre ++ [line]).
Proof.
  intros pre line post H. induction pre as [|x pre IH].
  - simpl. destruct (is_exit (Py.strip line)) eqn:Ex; [reflexivity|].
    destruct H as [H | (e & He)]; [congruence|]. rewrite He. reflexivity.
  - simpl. rewrite IH. reflexivity.
Qed.

(** An exception of [call_ollama] is not caught: it ends the session. *)
Theorem main_generation_failure_ends : forall pre line post e,
  Forall (fun l => is_exit (Py.strip l) = false /\
                   exists ai, call_ollama (Py.strip l) = Ok ai) pre ->
  is_exit (Py.strip line) = false ->
  call_ollama (Py.strip line) = Err e ->
  snd (main_loop subprocess_run call_ollama (pre ++ line :: post)) = Crashed e.
Proof.
  intros pre line post e Hpre Hx He. induction Hpre as [|x pre (Hx' & ai & Hai) _ IH].
  - simpl. rewrite Hx, He. reflexivity.
  - simpl app. rewrite (main_loop_cons x _ Hx' ai Hai). exact IH.
Qed.

(** Each line read prints at most one report. *)
Theorem main_reports_bounded : forall inputs,
  List.length (fst (main_loop subprocess_run call_ollama inputs)) <= List.length inputs.
Proof.
  induction inputs as [|line rest IH]; [simpl; lia|].
  cbn [main_loop]. destruct (is_exit (Py.strip line)); [simpl; lia|].
  destruct (call_ollama (Py.strip line)) as [a|e]; [|simpl; lia].
  destruct (main_loop subprocess_run call_ollama rest) as [outs fin]. cbn [fst] in *.
  destruct (Py.startswith a (lit "!")); cbn [app List.length]; lia.
Qed.

End Loop.

Lemma main_stops_reading_witness :
  main_loop (fun _ => Completed 0 (lit "a") []) (fun p => Ok (bang :: p))
    [lit "ls"; lit "  QuIt "; lit "rm -rf x"] =
  main_loop (fun _ => Completed 0 (lit "a") []) (fun p => Ok (bang :: p))
    [lit "ls"; lit "  QuIt "].
Proof.
  apply (main_stops_reading _ _ [lit "ls"] (lit "  QuIt ") [lit "rm -rf x"]).
  left. vm_compute. reflexivity.
Defined.

Lemma main_generation_failure_ends_witness :
  snd (main_loop (fun _ => Completed 0 [] [])
         (fun p => if list_eq_dec ascii_dec p (lit "boom") then Err HTTPError else Ok p)
         [lit "hello"; lit " boom"; lit "ls"]) = Crashed HTTPError.
Proof.
  apply (main_generation_failure_ends _ _ [lit "hello"] (lit " boom") [lit "ls"] HTTPError).
  - constructor; [|constructor]. split; [reflexivity|]. eexists. vm_compute. reflexivity.
  - reflexivity.
  - vm_compute. reflexivity.
Defined.

Lemma lower_idem : forall c, lower (lower c) = lower c.
Proof.
  intros [[] [] [] [] [] [] [] []]; vm_compute; reflexivity.
Qed.

(** The quit test of [main] ignores letter case. *)
Theorem is_exit_case_insensitive : forall s, is_exit (map lower s) = is_exit s.
Proof.
  intro s. unfold is_exit. rewrite map_map.
  rewrite (map_ext (fun c => lower (lower c)) lower lower_idem). reflexivity.
Qed.

End MainExtras.
